(** * Brute-force login-attempt guard and the CloudWatch dimension-keys route

    A shallow embedding of
      - pkg/services/loginattempt/loginattemptimpl/login_attempt.go
      - pkg/tsdb/cloudwatch/routes/dimension_keys.go
    and the properties of these two files that the specification states.

    The service methods talk to four collaborators (configuration, clock,
    attempt store, server lock) and to a logger.  They are embedded as
    programs over the operations of those collaborators; a backend gives
    the operations a meaning, and running a program against a backend
    yields its result, the final world and the list of operations it
    performed, in order. *)

From Stdlib Require Import ZArith List String Bool Lia.
Import ListNotations.

Local Open Scope string_scope.
Local Open Scope list_scope.
Local Open Scope Z_scope.

(** ** Go values *)

(** A Go [error] value: [nil] is [None]. *)
Inductive GoError : Type :=
| errorString (msg : string).

Definition error : Type := option GoError.

Definition Error (e : GoError) : string :=
  match e with errorString msg => msg end.

(** [time.Time] as nanoseconds since the epoch and [time.Duration] as a
    number of nanoseconds. *)
Definition Time : Type := Z.
Definition Duration : Type := Z.

Definition Nanosecond : Duration := 1.
Definition Second : Duration := 1000000000 * Nanosecond.
Definition Minute : Duration := 60 * Second.

Definition Time_Add (t : Time) (d : Duration) : Time := t + d.

(** ** Commands and queries of package loginattemptimpl *)

Record CreateLoginAttemptCommand : Type := {
  cla_Username : string;
  cla_IpAddress : string
}.

Record GetUserLoginAttemptCountQuery : Type := {
  q_Username : string;
  q_Since : Time
}.

Record DeleteOldLoginAttemptsCommand : Type := {
  OlderThan : Time
}.

(** ** Operations of the collaborators *)

(** Modelled from the spec: serverlock.ServerLockService.LockAndExecute is
    not among the sources.  Section 4.3 gives it three outcomes: the lock
    is acquired and the action runs, the lock is held elsewhere and the
    call returns normally without running the action, or acquisition
    itself fails with an error and the action does not run. *)
Inductive LockOutcome : Type :=
| LockAcquired
| LockNotAcquired
| LockFailed (e : GoError).

(** What the [select] of [Run] picked. *)
Inductive Wakeup : Type :=
| TickerC
| CtxDone.

Inductive LogValue : Type :=
| VString (s : string)
| VInt64 (n : Z)
| VError (e : GoError).

Inductive Op : Type -> Type :=
| CfgDisableBruteForceLoginProtection : Op bool
| TimeNow : Op Time
| TimeNewTicker (d : Duration) : Op unit
| Select : Op Wakeup
| CtxErr : Op error
| StoreCreateLoginAttempt (cmd : CreateLoginAttemptCommand) : Op error
| StoreGetUserLoginAttemptCount (q : GetUserLoginAttemptCountQuery) : Op (Z * error)
| StoreDeleteOldLoginAttempts (cmd : DeleteOldLoginAttemptsCommand) : Op (Z * error)
| ServerLock (actionName : string) (maxInterval : Duration) : Op LockOutcome
| LoggerError (msg : string) (ctx : list (string * LogValue)) : Op unit
| LoggerDebug (msg : string) (ctx : list (string * LogValue)) : Op unit.

(** An operation together with what it answered. *)
Inductive Event : Type :=
| EvCfg (disabled : bool)
| EvNow (t : Time)
| EvNewTicker (d : Duration)
| EvSelect (w : Wakeup)
| EvCtxErr (e : error)
| EvCreate (cmd : CreateLoginAttemptCommand) (err : error)
| EvCount (q : GetUserLoginAttemptCountQuery) (n : Z) (err : error)
| EvDelete (cmd : DeleteOldLoginAttemptsCommand) (n : Z) (err : error)
| EvLock (actionName : string) (maxInterval : Duration) (o : LockOutcome)
| EvLogError (msg : string) (ctx : list (string * LogValue))
| EvLogDebug (msg : string) (ctx : list (string * LogValue)).

Definition event_of {X : Type} (op : Op X) : X -> Event :=
  match op in Op X return X -> Event with
  | CfgDisableBruteForceLoginProtection => fun b => EvCfg b
  | TimeNow => fun t => EvNow t
  | TimeNewTicker d => fun _ => EvNewTicker d
  | Select => fun w => EvSelect w
  | CtxErr => fun e => EvCtxErr e
  | StoreCreateLoginAttempt cmd => fun e => EvCreate cmd e
  | StoreGetUserLoginAttemptCount q => fun r => EvCount q (fst r) (snd r)
  | StoreDeleteOldLoginAttempts cmd => fun r => EvDelete cmd (fst r) (snd r)
  | ServerLock name d => fun o => EvLock name d o
  | LoggerError msg ctx => fun _ => EvLogError msg ctx
  | LoggerDebug msg ctx => fun _ => EvLogDebug msg ctx
  end.

(** ** Programs *)

Inductive Prog (A : Type) : Type :=
| Ret (a : A)
| Vis {X : Type} (op : Op X) (k : X -> Prog A).

Arguments Ret {A} a.
Arguments Vis {A X} op k.

Fixpoint bind {A B : Type} (p : Prog A) (f : A -> Prog B) : Prog B :=
  match p with
  | Ret a => f a
  | Vis op k => Vis op (fun x => bind (k x) f)
  end.

Definition call {X : Type} (op : Op X) : Prog X := Vis op Ret.

Declare Scope prog_scope.
Delimit Scope prog_scope with prog.
Notation "x <- p ;; q" := (bind p (fun x => q))
  (at level 100, p at next level, right associativity) : prog_scope.
Notation "p ;; q" := (bind p (fun _ => q))
  (at level 100, right associativity) : prog_scope.
Local Open Scope prog_scope.

(** ** Backends and execution *)

(** The world is an environment [E] (configuration, clock, context, lock
    backing, database health) and the contents [S] of the attempt store.
    Store operations may look at and change both; the others only see the
    environment. *)
Record Backend (E S : Type) : Type := {
  cfg_disabled : E -> bool;
  clock_now : E -> Time * E;
  ctx_select : E -> Wakeup * E;
  ctx_err : E -> error;
  store_create : CreateLoginAttemptCommand -> E * S -> error * (E * S);
  store_count : GetUserLoginAttemptCountQuery -> E * S -> (Z * error) * (E * S);
  store_delete : DeleteOldLoginAttemptsCommand -> E * S -> (Z * error) * (E * S);
  lock_try : string -> Duration -> E -> LockOutcome * E
}.

Arguments cfg_disabled {E S} _ _.
Arguments clock_now {E S} _ _.
Arguments ctx_select {E S} _ _.
Arguments ctx_err {E S} _ _.
Arguments store_create {E S} _ _ _.
Arguments store_count {E S} _ _ _.
Arguments store_delete {E S} _ _ _.
Arguments lock_try {E S} _ _ _ _.

Section Exec.
Context {E S : Type} (B : Backend E S).

Definition handle {X : Type} (op : Op X) : E * S -> X * (E * S) :=
  match op in Op X return E * S -> X * (E * S) with
  | CfgDisableBruteForceLoginProtection => fun w => (cfg_disabled B (fst w), w)
  | TimeNow => fun w => let (t, e) := clock_now B (fst w) in (t, (e, snd w))
  | TimeNewTicker _ => fun w => (tt, w)
  | Select => fun w => let (k, e) := ctx_select B (fst w) in (k, (e, snd w))
  | CtxErr => fun w => (ctx_err B (fst w), w)
  | StoreCreateLoginAttempt cmd => store_create B cmd
  | StoreGetUserLoginAttemptCount q => store_count B q
  | StoreDeleteOldLoginAttempts cmd => store_delete B cmd
  | ServerLock name d => fun w => let (o, e) := lock_try B name d (fst w) in (o, (e, snd w))
  | LoggerError _ _ => fun w => (tt, w)
  | LoggerDebug _ _ => fun w => (tt, w)
  end.

(** Result, final world and the operations performed, oldest first. *)
Fixpoint exec {A : Type} (p : Prog A) (w : E * S) : A * (E * S) * list Event :=
  match p with
  | Ret a => (a, w, [])
  | Vis op k =>
      let (x, w1) := handle op w in
      let '(a, w2, tr) := exec (k x) w1 in
      (a, w2, event_of op x :: tr)
  end.

Definition result {A : Type} (p : Prog A) (w : E * S) : A := fst (fst (exec p w)).
Definition final {A : Type} (p : Prog A) (w : E * S) : E * S := snd (fst (exec p w)).
Definition trace {A : Type} (p : Prog A) (w : E * S) : list Event := snd (exec p w).
End Exec.

(** ** The service (login_attempt.go) *)

Module loginattemptimpl.

Definition maxInvalidLoginAttempts : Z := 5.
Definition loginAttemptsWindow : Duration := Minute * 5.

(** Modelled from the spec: serverlock.ServerLockService.LockAndExecute is
    not among the sources.  Following section 4.3 it runs [fn] exactly when
    the lock is acquired and then returns nil; it returns nil without
    running [fn] when the lock is held elsewhere, and the acquisition error
    otherwise. *)
Definition LockAndExecute (actionName : string) (maxInterval : Duration)
    (fn : Prog unit) : Prog error :=
  o <- call (ServerLock actionName maxInterval) ;;
  match o with
  | LockAcquired => fn ;; Ret None
  | LockNotAcquired => Ret None
  | LockFailed e => Ret (Some e)
  end.

Definition cleanup : Prog unit :=
  err <- LockAndExecute "delete old login attempts" (Minute * 10)
    (now <- call TimeNow ;;
     let cmd := {| OlderThan := Time_Add now (Minute * -10) |} in
     r <- call (StoreDeleteOldLoginAttempts cmd) ;;
     match snd r with
     | Some err =>
         call (LoggerError "Problem deleting expired login attempts"
                 [("error", VString (Error err))])
     | None =>
         call (LoggerDebug "Deleted expired login attempts"
                 [("rows affected", VInt64 (fst r))])
     end) ;;
  match err with
  | Some e =>
      call (LoggerError "failed to lock and execute cleanup of old login attempts"
              [("error", VError e)])
  | None => Ret tt
  end.

(** Where [Run] stands after a number of turns of its loop: it has
    returned, or it is at the [select] again. *)
Inductive RunStatus : Type :=
| Returned (err : error)
| Selecting.

(** The [for { select { ... } }] of [Run], followed for at most [turns]
    turns. *)
Fixpoint Run_loop (turns : nat) : Prog RunStatus :=
  match turns with
  | O => Ret Selecting
  | S n =>
      w <- call Select ;;
      match w with
      | TickerC => cleanup ;; Run_loop n
      | CtxDone => e <- call CtxErr ;; Ret (Returned e)
      end
  end.

Definition Run (turns : nat) : Prog RunStatus :=
  disabled <- call CfgDisableBruteForceLoginProtection ;;
  if (disabled : bool) then Ret (Returned None)
  else
    call (TimeNewTicker (Minute * 10)) ;;
    Run_loop turns.

Definition Add (username IPAddress : string) : Prog error :=
  disabled <- call CfgDisableBruteForceLoginProtection ;;
  if (disabled : bool) then Ret None
  else
    call (StoreCreateLoginAttempt
            {| cla_Username := username; cla_IpAddress := IPAddress |}).

Definition Validate (username : string) : Prog (bool * error) :=
  disabled <- call CfgDisableBruteForceLoginProtection ;;
  if (disabled : bool) then Ret (true, None)
  else
    now <- call TimeNow ;;
    let loginAttemptCountQuery :=
      {| q_Username := username;
         q_Since := Time_Add now (- loginAttemptsWindow) |} in
    r <- call (StoreGetUserLoginAttemptCount loginAttemptCountQuery) ;;
    match snd r with
    | Some err => Ret (false, Some err)
    | None =>
        if fst r >=? maxInvalidLoginAttempts then Ret (false, None)
        else Ret (true, None)
    end.

End loginattemptimpl.

(** ** A simulated backend *)

Module sim.

(** Section 3 of the specification: one row per failed login. *)
Record AttemptRecord : Type := {
  username : string;
  sourceAddress : string;
  occurredAt : Time
}.

(** The environment of a simulation: the configuration flag, a clock that
    only moves when the simulation moves it, what the next [select]s pick
    (cancellation once the list is used up), the error of the context,
    what the next lock requests answer (acquired once the list is used
    up), and whether the database is down. *)
Record Env : Type := {
  disabled : bool;
  clock : Time;
  wakeups : list Wakeup;
  cancelCause : error;
  locks : list LockOutcome;
  outage : error
}.

Definition advance (d : Duration) (e : Env) : Env :=
  {| disabled := disabled e; clock := Time_Add (clock e) d;
     wakeups := wakeups e; cancelCause := cancelCause e;
     locks := locks e; outage := outage e |}.

Definition next_wakeup (e : Env) : Wakeup * Env :=
  match wakeups e with
  | [] => (CtxDone, e)
  | w :: rest =>
      (w, {| disabled := disabled e; clock := clock e; wakeups := rest;
             cancelCause := cancelCause e; locks := locks e;
             outage := outage e |})
  end.

Definition next_lock (e : Env) : LockOutcome * Env :=
  match locks e with
  | [] => (LockAcquired, e)
  | o :: rest =>
      (o, {| disabled := disabled e; clock := clock e; wakeups := wakeups e;
             cancelCause := cancelCause e; locks := rest;
             outage := outage e |})
  end.

(** Modelled from the spec: the attempt store (xormStore) is not among the
    sources.  Section 4.1: a recorded attempt carries occurredAt = now. *)
Definition Create (cmd : CreateLoginAttemptCommand)
    (w : Env * list AttemptRecord) : error * (Env * list AttemptRecord) :=
  match outage (fst w) with
  | Some e => (Some e, w)
  | None =>
      (None, (fst w, (snd w ++ [{| username := cla_Username cmd;
                                   sourceAddress := cla_IpAddress cmd;
                                   occurredAt := clock (fst w) |}])%list))
  end.

Definition counted (q : GetUserLoginAttemptCountQuery) (r : AttemptRecord) : bool :=
  String.eqb (username r) (q_Username q) && (q_Since q <? occurredAt r).

(** Modelled from the spec: the attempt store (xormStore) is not among the
    sources.  Sections 4.1, 4.2 and 8: CountSince counts the rows of the
    username that are strictly newer than [since]; a row at exactly
    [since] is excluded. *)
Definition CountSince (q : GetUserLoginAttemptCountQuery)
    (w : Env * list AttemptRecord) : (Z * error) * (Env * list AttemptRecord) :=
  match outage (fst w) with
  | Some e => ((0, Some e), w)
  | None => ((Z.of_nat (List.length (filter (counted q) (snd w))), None), w)
  end.

(** Modelled from the spec: the attempt store (xormStore) is not among the
    sources.  Section 8: DeleteOlderThan removes exactly the rows with
    occurredAt strictly before the threshold and answers how many. *)
Definition DeleteOlderThan (cmd : DeleteOldLoginAttemptsCommand)
    (w : Env * list AttemptRecord) : (Z * error) * (Env * list AttemptRecord) :=
  match outage (fst w) with
  | Some e => ((0, Some e), w)
  | None =>
      let kept := filter (fun r => negb (occurredAt r <? OlderThan cmd)) (snd w) in
      ((Z.of_nat (List.length (snd w) - List.length kept), None), (fst w, kept))
  end.

Definition backend : Backend Env (list AttemptRecord) := {|
  cfg_disabled := disabled;
  clock_now := fun e => (clock e, e);
  ctx_select := next_wakeup;
  ctx_err := cancelCause;
  store_create := Create;
  store_count := CountSince;
  store_delete := DeleteOlderThan;
  lock_try := fun _ _ => next_lock
|}.

Definition env0 : Env := {|
  disabled := false;
  clock := 1700000000 * Second;
  wakeups := [];
  cancelCause := Some (errorString "context canceled");
  locks := [];
  outage := None
|}.

Definition attempt (u : string) (t : Time) : AttemptRecord :=
  {| username := u; sourceAddress := "192.0.2.7"; occurredAt := t |}.

(** [n] attempts of [u], all one minute before the clock of [env0]. *)
Definition recent (u : string) (n : nat) : list AttemptRecord :=
  repeat (attempt u (clock env0 - 1 * Minute)) n.

Definition switched_off : Env := {|
  disabled := true;
  clock := clock env0;
  wakeups := [TickerC; TickerC];
  cancelCause := cancelCause env0;
  locks := [];
  outage := None
|}.

Definition database_down : Env := {|
  disabled := false;
  clock := clock env0;
  wakeups := [TickerC; TickerC; TickerC];
  cancelCause := cancelCause env0;
  locks := [LockFailed (errorString "lock table unreachable"); LockNotAcquired];
  outage := Some (errorString "database is locked")
|}.


(** The lock is held elsewhere at the first two ticks. *)
Definition lock_busy : Env := {|
  disabled := false;
  clock := clock env0;
  wakeups := [TickerC; TickerC];
  cancelCause := cancelCause env0;
  locks := [LockNotAcquired; LockNotAcquired];
  outage := None
|}.

End sim.

(** ** The dimension-keys route (dimension_keys.go) *)

Module routes.

Definition StatusBadRequest : Z := 400.
Definition StatusInternalServerError : Z := 500.

Inductive DimensionKeysRequestType : Type :=
| StandardDimensionKeysRequest
| FilterDimensionKeysRequest.

(** A Go slice: [nil] is [None]. *)
Definition slice (A : Type) : Type := option (list A).

(** What dimension_keys.go imports from packages that are not among the
    sources (models, resources, services, encoding/json), taken as
    parameters. *)
Class Externals : Type := {
  PluginContext : Type;
  url_Values : Type;
  DimensionKeysRequest : Type;
  RequestContext : Type;
  MetricsClientProvider : Type;
  HttpError : Type;
  (* resources *)
  GetDimensionKeysRequest : url_Values -> DimensionKeysRequest * error;
  Region : DimensionKeysRequest -> string;
  Namespace : DimensionKeysRequest -> string;
  Type_ : DimensionKeysRequest -> DimensionKeysRequestType;
  (* models *)
  RequestContext_MetricsClientProvider : RequestContext -> MetricsClientProvider;
  NewHttpError : string -> Z -> GoError -> option HttpError;
  StatusCode : HttpError -> Z;
  (* services *)
  ListMetricsService_GetDimensionKeysByDimensionFilter :
    MetricsClientProvider -> DimensionKeysRequest -> slice string * error;
  GetHardCodedDimensionKeysByNamespace : string -> slice string * error;
  (* encoding/json *)
  json_Marshal : slice string -> slice Byte.byte * error
}.

Section Handler.
Context {X : Externals}.

(** The interface models.ListMetricsProvider, with the one method the
    handler calls. *)
Record ListMetricsProvider : Type := {
  GetDimensionKeysByDimensionFilter : DimensionKeysRequest -> slice string * error
}.

Definition RequestContextFactoryFunc : Type :=
  PluginContext -> string -> RequestContext * error.

Definition NewListMetricsService (p : MetricsClientProvider) : ListMetricsProvider :=
  {| GetDimensionKeysByDimensionFilter :=
       ListMetricsService_GetDimensionKeysByDimensionFilter p |}.

Definition newListMetricsService (pluginCtx : PluginContext)
    (reqCtxFactory : RequestContextFactoryFunc) (region : string)
    : option ListMetricsProvider * error :=
  let (metricClient, err) := reqCtxFactory pluginCtx region in
  match err with
  | Some e => (None, Some e)
  | None =>
      (Some (NewListMetricsService (RequestContext_MetricsClientProvider metricClient)),
       None)
  end.

Definition DimensionKeysHandler (pluginCtx : PluginContext)
    (reqCtxFactory : RequestContextFactoryFunc) (parameters : url_Values)
    : slice Byte.byte * option HttpError :=
  let (dimensionKeysRequest, err) := GetDimensionKeysRequest parameters in
  match err with
  | Some e => (None, NewHttpError "error in DimensionKeyHandler" StatusBadRequest e)
  | None =>
      match newListMetricsService pluginCtx reqCtxFactory (Region dimensionKeysRequest) with
      | (_, Some e) =>
          (None, NewHttpError "error in DimensionKeyHandler" StatusInternalServerError e)
      | (None, None) =>
          (* a nil service: the method call below would panic; the factory
             of this file never answers so *)
          (None, None)
      | (Some service, None) =>
          let (response, err) :=
            match Type_ dimensionKeysRequest with
            | FilterDimensionKeysRequest =>
                GetDimensionKeysByDimensionFilter service dimensionKeysRequest
            | StandardDimensionKeysRequest =>
                GetHardCodedDimensionKeysByNamespace (Namespace dimensionKeysRequest)
            end in
          match err with
          | Some e =>
              (None, NewHttpError "error in DimensionKeyHandler" StatusInternalServerError e)
          | None =>
              let (jsonResponse, err) := json_Marshal response in
              match err with
              | Some e =>
                  (None, NewHttpError "error in DimensionKeyHandler"
                           StatusInternalServerError e)
              | None => (jsonResponse, None)
              end
          end
      end
  end.





End Handler.

(** A stub of the externals, in the way the package's tests stub them:
    parameters are key/value pairs, "region" and "namespace" are required,
    a "metricName" makes the request a filter request. *)
Module stub.

Fixpoint get (k : string) (kv : list (string * string)) : option string :=
  match kv with
  | [] => None
  | (k', v) :: rest => if String.eqb k k' then Some v else get k rest
  end.

Record Request : Type := {
  rRegion : string;
  rNamespace : string;
  rMetricName : string
}.

Definition parse (kv : list (string * string)) : Request * error :=
  match get "region" kv, get "namespace" kv with
  | Some r, Some n =>
      ({| rRegion := r; rNamespace := n;
          rMetricName := match get "metricName" kv with Some m => m | None => "" end |},
       None)
  | _, _ =>
      ({| rRegion := ""; rNamespace := ""; rMetricName := "" |},
       Some (errorString "missing parameter"))
  end.

Record Err : Type := {
  eMessage : string;
  eError : GoError;
  eStatusCode : Z
}.

Definition dquote : string := String (Ascii.ascii_of_nat 34) EmptyString.

Definition quote (s : string) : list Byte.byte :=
  list_byte_of_string (dquote ++ s ++ dquote)%string.

Fixpoint joined (l : list string) : list Byte.byte :=
  match l with
  | [] => []
  | [s] => quote s
  | s :: rest => quote s ++ list_byte_of_string "," ++ joined rest
  end.

Definition marshal (v : slice string) : slice Byte.byte * error :=
  match v with
  | None => (Some (list_byte_of_string "null"), None)
  | Some l => (Some (list_byte_of_string "[" ++ joined l ++ list_byte_of_string "]"), None)
  end.

#[local] Instance externals : Externals := {|
  PluginContext := unit;
  url_Values := list (string * string);
  DimensionKeysRequest := Request;
  RequestContext := list string;
  MetricsClientProvider := list string;
  HttpError := Err;
  GetDimensionKeysRequest := parse;
  Region := rRegion;
  Namespace := rNamespace;
  Type_ := fun r => if String.eqb (rMetricName r) "" then StandardDimensionKeysRequest
                    else FilterDimensionKeysRequest;
  RequestContext_MetricsClientProvider := fun c => c;
  NewHttpError := fun m c e =>
    Some {| eMessage := (m ++ ": " ++ Error e)%string; eError := e; eStatusCode := c |};
  StatusCode := eStatusCode;
  ListMetricsService_GetDimensionKeysByDimensionFilter := fun keys _ => (Some keys, None);
  GetHardCodedDimensionKeysByNamespace := fun ns =>
    if String.eqb ns "AWS/EC2" then (Some ["InstanceId"; "InstanceType"], None)
    else (None, Some (errorString "unable to find dimensions for namespace"));
  json_Marshal := marshal
|}.

Definition factory : RequestContextFactoryFunc :=
  fun _ region =>
    if String.eqb region "us-east-1" then (["InstanceId"], None)
    else ([], Some (errorString "no client for region")).


(** A factory that knows no region at all. *)
Definition no_factory : RequestContextFactoryFunc :=
  fun _ _ => ([], Some (errorString "no client at all")).

(** A factory that answers another client in us-east-1. *)
Definition other_factory : RequestContextFactoryFunc :=
  fun _ region =>
    if String.eqb region "us-east-1" then (["QueueName"], None)
    else ([], Some (errorString "no client for region")).

End stub.

End routes.

(** ** Reading traces *)

Module obs.

Import loginattemptimpl.

(** The readings of the clock, in order. *)
Fixpoint samples (tr : list Event) : list Time :=
  match tr with
  | [] => []
  | EvNow t :: rest => t :: samples rest
  | _ :: rest => samples rest
  end.

(** The count queries sent to the store, in order. *)
Fixpoint count_queries (tr : list Event) : list GetUserLoginAttemptCountQuery :=
  match tr with
  | [] => []
  | EvCount q _ _ :: rest => q :: count_queries rest
  | _ :: rest => count_queries rest
  end.


Definition is_cfg_read (ev : Event) : bool :=
  match ev with EvCfg _ => true | _ => false end.

Definition is_store_write (ev : Event) : bool :=
  match ev with EvCreate _ _ | EvDelete _ _ _ => true | _ => false end.

Definition is_store_op (ev : Event) : bool :=
  match ev with EvCreate _ _ | EvCount _ _ _ | EvDelete _ _ _ => true | _ => false end.

Definition is_tick (ev : Event) : bool :=
  match ev with EvSelect TickerC => true | _ => false end.

Definition is_cancel (ev : Event) : bool :=
  match ev with EvSelect CtxDone => true | _ => false end.

Definition is_acquired (ev : Event) : bool :=
  match ev with EvLock _ _ LockAcquired => true | _ => false end.

Definition is_error_log (ev : Event) : bool :=
  match ev with EvLogError _ _ => true | _ => false end.

Definition is_lock_failure (ev : Event) : bool :=
  match ev with EvLock _ _ (LockFailed _) => true | _ => false end.

Definition is_delete_failure (ev : Event) : bool :=
  match ev with EvDelete _ _ (Some _) => true | _ => false end.

(** The next event is an entry of the error log. *)
Definition error_logged (next : list Event) : bool :=
  match next with
  | ev :: _ => is_error_log ev
  | [] => false
  end.

(** Every event that [trigger] picks is followed at once by events that
    [expect] accepts. *)
Fixpoint each_followed (trigger : Event -> bool) (expect : list Event -> bool)
    (tr : list Event) : bool :=
  match tr with
  | [] => true
  | ev :: rest =>
      (if trigger ev then expect rest else true) && each_followed trigger expect rest
  end.

(** The next event asks for the lock of the clean-up job, to be held for at
    most ten minutes. *)
Definition lock_requested (next : list Event) : bool :=
  match next with
  | EvLock name d _ :: _ =>
      String.eqb name "delete old login attempts" && (d =? 10 * Minute)
  | _ => false
  end.

(** The next two events read the clock and delete what is older than that
    reading less ten minutes. *)
Definition delete_issued (next : list Event) : bool :=
  match next with
  | EvNow t :: EvDelete cmd _ _ :: _ => OlderThan cmd =? t - 10 * Minute
  | _ => false
  end.

(** The query [Validate] builds for a username when the clock reads [now]. *)
Definition window_query (u : string) (now : Time) : GetUserLoginAttemptCountQuery :=
  {| q_Username := u; q_Since := now - 5 * Minute |}.

(** What the store answers when asked, in world [w], for the attempts of
    [u] in the five minutes before the reading of the clock. *)
Definition attempt_count {E S : Type} (B : Backend E S) (u : string) (w : E * S)
    : Z * error :=
  let (now, e) := clock_now B (fst w) in
  fst (store_count B (window_query u now) (e, snd w)).

(** The count query of a store reads: it leaves the records as they are. *)
Definition count_reads {E S : Type} (B : Backend E S) : Prop :=
  forall q w, snd (snd (store_count B q w)) = snd w.

(** What one run of [cleanup] logs after the delete answered [r]. *)
Definition delete_log (r : Z * error) : Event :=
  match snd r with
  | Some err =>
      EvLogError "Problem deleting expired login attempts" [("error", VString (Error err))]
  | None =>
      EvLogDebug "Deleted expired login attempts" [("rows affected", VInt64 (fst r))]
  end.


(** More readers of traces. *)
Definition is_lock_request (ev : Event) : bool :=
  match ev with EvLock _ _ _ => true | _ => false end.

Definition is_create (ev : Event) : bool :=
  match ev with EvCreate _ _ => true | _ => false end.

Definition is_delete (ev : Event) : bool :=
  match ev with EvDelete _ _ _ => true | _ => false end.

Definition is_new_ticker (ev : Event) : bool :=
  match ev with EvNewTicker _ => true | _ => false end.

(** The events [Add] may produce, and those [Validate] may produce. *)
Definition Add_event (ev : Event) : bool :=
  match ev with EvCfg _ | EvCreate _ _ => true | _ => false end.

Definition Validate_event (ev : Event) : bool :=
  match ev with EvCfg _ | EvNow _ | EvCount _ _ _ => true | _ => false end.

(** How often [p] holds in a trace. *)
Definition occurrences (p : Event -> bool) (tr : list Event) : nat :=
  List.length (filter p tr).

End obs.

(** * Properties *)

Import loginattemptimpl obs.

(** ** Execution lemmas *)

Lemma exec_bind {E S A C : Type} (B : Backend E S) (p : Prog A) (f : A -> Prog C) :
  forall w,
    exec B (bind p f) w =
    let '(a, w1, t1) := exec B p w in
    let '(c, w2, t2) := exec B (f a) w1 in
    (c, w2, t1 ++ t2).
Proof.
  induction p as [a | X op k IH]; intros w; simpl.
  - destruct (exec B (f a) w) as [[c w2] t2]. reflexivity.
  - destruct (handle B op w) as [x w1]. rewrite IH.
    destruct (exec B (k x) w1) as [[a w2] t1].
    destruct (exec B (f a) w2) as [[c w3] t2]. reflexivity.
Qed.

Lemma window_query_eq (u : string) (now : Time) :
  {| q_Username := u; q_Since := Time_Add now (- loginAttemptsWindow) |}
  = window_query u now.
Proof.
  unfold window_query, Time_Add, loginAttemptsWindow, Minute, Second, Nanosecond.
  f_equal; lia.
Qed.

(** [Validate] with protection enabled, step by step. *)
Lemma exec_Validate_enabled {E S : Type} (B : Backend E S) (u : string) (w : E * S) :
  cfg_disabled B (fst w) = false ->
  exec B (Validate u) w =
  let (now, e) := clock_now B (fst w) in
  let q := window_query u now in
  let (r, w') := store_count B q (e, snd w) in
  (match snd r with
   | Some err => (false, Some err)
   | None => (fst r <? 5, None)
   end, w', [EvCfg false; EvNow now; EvCount q (fst r) (snd r)]).
Proof.
  intros Hcfg. unfold Validate. simpl. rewrite Hcfg. simpl.
  destruct (clock_now B (fst w)) as [now e]. rewrite window_query_eq.
  destruct (store_count B (window_query u now) (e, snd w)) as [[n err] w'].
  simpl. destruct err as [err|]; simpl; [reflexivity|].
  unfold maxInvalidLoginAttempts. rewrite Z.geb_leb.
  destruct (Z.leb_spec 5 n); destruct (Z.ltb_spec n 5); try lia; reflexivity.
Qed.

Lemma exec_Validate_disabled {E S : Type} (B : Backend E S) (u : string) (w : E * S) :
  cfg_disabled B (fst w) = true ->
  exec B (Validate u) w = ((true, None), w, [EvCfg true]).
Proof. intros Hcfg. unfold Validate. simpl. rewrite Hcfg. reflexivity. Qed.

Lemma exec_Add_enabled {E S : Type} (B : Backend E S) (u ip : string) (w : E * S) :
  cfg_disabled B (fst w) = false ->
  exec B (Add u ip) w =
  let cmd := {| cla_Username := u; cla_IpAddress := ip |} in
  let (err, w') := store_create B cmd w in
  (err, w', [EvCfg false; EvCreate cmd err]).
Proof.
  intros Hcfg. unfold Add. simpl. rewrite Hcfg. simpl.
  destruct (store_create B _ w) as [err w']. reflexivity.
Qed.

Lemma exec_Add_disabled {E S : Type} (B : Backend E S) (u ip : string) (w : E * S) :
  cfg_disabled B (fst w) = true ->
  exec B (Add u ip) w = (None, w, [EvCfg true]).
Proof. intros Hcfg. unfold Add. simpl. rewrite Hcfg. reflexivity. Qed.

(** [cleanup], step by step. *)
Lemma exec_cleanup {E S : Type} (B : Backend E S) (w : E * S) :
  exec B cleanup w =
  let name := "delete old login attempts" in
  let (o, e1) := lock_try B name (10 * Minute) (fst w) in
  match o with
  | LockAcquired =>
      let (now, e2) := clock_now B e1 in
      let cmd := {| OlderThan := now - 10 * Minute |} in
      let (r, w') := store_delete B cmd (e2, snd w) in
      (tt, w', [EvLock name (10 * Minute) LockAcquired; EvNow now;
                EvDelete cmd (fst r) (snd r); delete_log r])
  | LockNotAcquired =>
      (tt, (e1, snd w), [EvLock name (10 * Minute) LockNotAcquired])
  | LockFailed e =>
      (tt, (e1, snd w),
       [EvLock name (10 * Minute) (LockFailed e);
        EvLogError "failed to lock and execute cleanup of old login attempts"
          [("error", VError e)]])
  end.
Proof.
  unfold cleanup, LockAndExecute.
  change (Minute * 10) with (10 * Minute).
  cbn [bind call exec handle event_of fst snd].
  destruct (lock_try B _ (10 * Minute) (fst w)) as [o e1].
  destruct o as [| | e]; cbn [bind call exec handle event_of fst snd].
  - destruct (clock_now B e1) as [now e2].
    replace (Time_Add now (Minute * -10)) with (now - 10 * Minute)
      by (unfold Time_Add, Minute, Second, Nanosecond; lia).
    destruct (store_delete B _ (e2, snd w)) as [[n err] w'].
    unfold delete_log. cbn [fst snd].
    destruct err; reflexivity.
  - reflexivity.
  - reflexivity.
Qed.

(** ** Validation against the ceiling *)

(** C1: with protection enabled, [Validate] answers allowed when the store
    counts fewer than 5 attempts of the username in the trailing five
    minutes, and not allowed when it counts 5 or more; a count of exactly 5
    is not allowed. *)
Theorem Validate_allowed_iff_below_ceiling :
  forall (E S : Type) (B : Backend E S) (w : E * S) (u : string) (n : Z),
    cfg_disabled B (fst w) = false ->
    attempt_count B u w = (n, None) ->
    (n < 5 -> result B (Validate u) w = (true, None)) /\
    (5 <= n -> result B (Validate u) w = (false, None)) /\
    (n = 5 -> result B (Validate u) w = (false, None)).
Proof.
  intros E S B w u n Hcfg Hcount.
  unfold result. rewrite (exec_Validate_enabled B u w Hcfg).
  unfold attempt_count in Hcount.
  destruct (clock_now B (fst w)) as [now e]. cbv zeta.
  destruct (store_count B (window_query u now) (e, snd w)) as [r w'].
  cbn [fst snd] in *. subst r. cbn [fst snd].
  repeat split; intros Hn.
  - destruct (Z.ltb_spec n 5); [reflexivity | lia].
  - destruct (Z.ltb_spec n 5); [lia | reflexivity].
  - subst n. reflexivity.
Qed.

(** ** Protection switched off *)

(** C2: with protection disabled, [Add] writes nothing to the store and
    succeeds, and [Validate] answers allowed without asking the store,
    whatever the store holds: the only operation either performs is the
    reading of the flag, and the world is left as it was. *)
Theorem disabled_guard_is_inert :
  forall (E S : Type) (B : Backend E S) (w : E * S) (u ip : string),
    cfg_disabled B (fst w) = true ->
    exec B (Add u ip) w = (None, w, [EvCfg true]) /\
    exec B (Validate u) w = ((true, None), w, [EvCfg true]).
Proof.
  intros E S B w u ip Hcfg. split.
  - apply exec_Add_disabled, Hcfg.
  - apply exec_Validate_disabled, Hcfg.
Qed.

(** ** Store errors *)

(** C3: when the store's create fails with an error, [Add] returns that
    very error; when the store's count fails with an error, [Validate]
    returns that very error (and not allowed). *)
Theorem store_errors_surface_unchanged :
  forall (E S : Type) (B : Backend E S) (w : E * S) (u ip : string) (e : GoError),
    cfg_disabled B (fst w) = false ->
    (fst (store_create B {| cla_Username := u; cla_IpAddress := ip |} w) = Some e ->
     result B (Add u ip) w = Some e) /\
    (snd (attempt_count B u w) = Some e ->
     result B (Validate u) w = (false, Some e)).
Proof.
  intros E S B w u ip e Hcfg. split; intros Herr; unfold result.
  - rewrite (exec_Add_enabled B u ip w Hcfg). cbv zeta.
    destruct (store_create B _ w) as [err w']. cbn [fst] in *. exact Herr.
  - rewrite (exec_Validate_enabled B u w Hcfg).
    unfold attempt_count in Herr.
    destruct (clock_now B (fst w)) as [now e1]. cbv zeta.
    destruct (store_count B (window_query u now) (e1, snd w)) as [r w'].
    cbn [fst snd] in *. rewrite Herr. reflexivity.
Qed.

Lemma Validate_allowed_iff_below_ceiling_witness :
  result sim.backend (Validate "alice") (sim.env0, sim.recent "alice" 4) = (true, None) /\
  result sim.backend (Validate "alice") (sim.env0, sim.recent "alice" 5) = (false, None) /\
  result sim.backend (Validate "alice") (sim.env0, sim.recent "alice" 6) = (false, None).
Proof.
  destruct (Validate_allowed_iff_below_ceiling _ _ sim.backend
              (sim.env0, sim.recent "alice" 4) "alice" 4 eq_refl eq_refl)
    as [Hbelow _].
  destruct (Validate_allowed_iff_below_ceiling _ _ sim.backend
              (sim.env0, sim.recent "alice" 5) "alice" 5 eq_refl eq_refl)
    as [_ [_ Hat]].
  destruct (Validate_allowed_iff_below_ceiling _ _ sim.backend
              (sim.env0, sim.recent "alice" 6) "alice" 6 eq_refl eq_refl)
    as [_ [Habove _]].
  split; [| split].
  - apply Hbelow. reflexivity.
  - apply Hat. reflexivity.
  - apply Habove. discriminate.
Defined.

Lemma disabled_guard_is_inert_witness :
  exec sim.backend (Add "alice" "192.0.2.7") (sim.switched_off, sim.recent "alice" 9)
  = (None, (sim.switched_off, sim.recent "alice" 9), [EvCfg true]) /\
  exec sim.backend (Validate "alice") (sim.switched_off, sim.recent "alice" 9)
  = ((true, None), (sim.switched_off, sim.recent "alice" 9), [EvCfg true]).
Proof.
  apply (disabled_guard_is_inert _ _ sim.backend
           (sim.switched_off, sim.recent "alice" 9) "alice" "192.0.2.7").
  reflexivity.
Defined.

Lemma store_errors_surface_unchanged_witness :
  result sim.backend (Add "alice" "192.0.2.7") (sim.database_down, [])
  = Some (errorString "database is locked") /\
  result sim.backend (Validate "alice") (sim.database_down, [])
  = (false, Some (errorString "database is locked")).
Proof.
  destruct (store_errors_surface_unchanged _ _ sim.backend (sim.database_down, [])
              "alice" "192.0.2.7" (errorString "database is locked") eq_refl)
    as [HAdd HValidate].
  split; [apply HAdd | apply HValidate]; reflexivity.
Defined.

(** ** The maintenance loop *)

(** One turn of the loop of [Run]. *)
Lemma exec_Run_loop_S {E S : Type} (B : Backend E S) (n : nat) (w : E * S) :
  exec B (Run_loop (Datatypes.S n)) w =
  let (k, e1) := ctx_select B (fst w) in
  match k with
  | TickerC =>
      let '(_, w1, t1) := exec B cleanup (e1, snd w) in
      let '(r, w2, t2) := exec B (Run_loop n) w1 in
      (r, w2, EvSelect TickerC :: t1 ++ t2)
  | CtxDone =>
      (Returned (ctx_err B e1), (e1, snd w), [EvSelect CtxDone; EvCtxErr (ctx_err B e1)])
  end.
Proof.
  cbn [Run_loop bind call exec handle event_of].
  destruct (ctx_select B (fst w)) as [k e1]. destruct k.
  - rewrite exec_bind. cbn [fst snd].
    destruct (exec B cleanup (e1, snd w)) as [[u w1] t1].
    destruct (exec B (Run_loop n) w1) as [[r w2] t2]. reflexivity.
  - reflexivity.
Qed.

Lemma exec_Run_enabled {E S : Type} (B : Backend E S) (turns : nat) (w : E * S) :
  cfg_disabled B (fst w) = false ->
  exec B (Run turns) w =
  let '(r, w', tr) := exec B (Run_loop turns) w in
  (r, w', EvCfg false :: EvNewTicker (10 * Minute) :: tr).
Proof.
  intros Hcfg. unfold Run. change (Minute * 10) with (10 * Minute).
  cbn [bind call exec handle event_of]. rewrite Hcfg.
  cbn [bind call exec handle event_of].
  destruct (exec B (Run_loop turns) w) as [[r w'] tr]. reflexivity.
Qed.

(** The events of one [cleanup] hold no [select]. *)
Lemma cleanup_trace_no_select {E S : Type} (B : Backend E S) (w : E * S) :
  existsb is_cancel (trace B cleanup w) = false /\
  filter is_tick (trace B cleanup w) = [].
Proof.
  unfold trace. rewrite exec_cleanup. cbv zeta.
  destruct (lock_try B _ _ (fst w)) as [o e1]. destruct o as [| | e].
  - destruct (clock_now B e1) as [now e2].
    destruct (store_delete B _ (e2, snd w)) as [[n err] w'].
    unfold delete_log. destruct err; split; reflexivity.
  - split; reflexivity.
  - split; reflexivity.
Qed.

(** The loop returns exactly when its [select] picked the cancellation,
    with the error of the context; until then every turn was a tick. *)
Lemma Run_loop_trace {E S : Type} (B : Backend E S) :
  forall (turns : nat) (w : E * S),
    match result B (Run_loop turns) w with
    | Returned e =>
        exists pre,
          trace B (Run_loop turns) w = pre ++ [EvSelect CtxDone; EvCtxErr e] /\
          existsb is_cancel pre = false
    | Selecting =>
        existsb is_cancel (trace B (Run_loop turns) w) = false /\
        List.length (filter is_tick (trace B (Run_loop turns) w)) = turns
    end.
Proof.
  induction turns as [| n IH]; intros w.
  - split; reflexivity.
  - unfold result, trace. rewrite exec_Run_loop_S.
    destruct (ctx_select B (fst w)) as [k e1]. destruct k.
    + pose proof (cleanup_trace_no_select B (e1, snd w)) as [Hc Ht].
      unfold trace in Hc, Ht.
      destruct (exec B cleanup (e1, snd w)) as [[u w1] t1].
      specialize (IH w1). unfold result, trace in IH.
      destruct (exec B (Run_loop n) w1) as [[r w2] t2].
      cbn [fst snd] in *. destruct r as [e |].
      * destruct IH as [pre [Htr Hpre]].
        exists (EvSelect TickerC :: t1 ++ pre). split.
        -- rewrite Htr. cbn [app]. rewrite app_assoc. reflexivity.
        -- cbn [existsb is_cancel]. rewrite existsb_app, Hc, Hpre. reflexivity.
      * destruct IH as [Hno Hlen]. split.
        -- cbn [existsb is_cancel]. rewrite existsb_app, Hc, Hno. reflexivity.
        -- cbn [filter is_tick]. rewrite filter_app, Ht. cbn [app List.length].
           rewrite Hlen. reflexivity.
    + cbn [fst snd]. exists []. split; reflexivity.
Qed.

(** Once the loop has returned, following it for more turns changes
    nothing. *)
Lemma Run_loop_stable {E S : Type} (B : Backend E S) :
  forall (turns more : nat) (w : E * S) (e : error),
    result B (Run_loop turns) w = Returned e ->
    exec B (Run_loop (turns + more)) w = exec B (Run_loop turns) w.
Proof.
  induction turns as [| n IH]; intros more w e Hret.
  - discriminate Hret.
  - change (Datatypes.S n + more)%nat with (Datatypes.S (n + more)).
    unfold result in Hret. rewrite exec_Run_loop_S in Hret |- *.
    rewrite exec_Run_loop_S.
    destruct (ctx_select B (fst w)) as [k e1]. destruct k; [| reflexivity].
    destruct (exec B cleanup (e1, snd w)) as [[u w1] t1].
    specialize (IH more w1). unfold result in IH.
    destruct (exec B (Run_loop n) w1) as [[r w2] t2] eqn:Hn.
    cbn [fst] in Hret, IH. rewrite (IH e Hret). reflexivity.
Qed.

(** In the loop, every tick is followed by the request of the clean-up
    lock, every acquisition by the delete, and every failure of the lock or
    of the delete by an entry in the error log. *)
Lemma Run_loop_discipline {E S : Type} (B : Backend E S) :
  forall (turns : nat) (w : E * S),
    each_followed is_tick lock_requested (trace B (Run_loop turns) w) = true /\
    each_followed is_acquired delete_issued (trace B (Run_loop turns) w) = true /\
    each_followed is_lock_failure error_logged (trace B (Run_loop turns) w) = true /\
    each_followed is_delete_failure error_logged (trace B (Run_loop turns) w) = true.
Proof.
  induction turns as [| n IH]; intros w.
  - repeat split; reflexivity.
  - unfold trace. rewrite exec_Run_loop_S.
    destruct (ctx_select B (fst w)) as [k e1]. destruct k.
    + rewrite exec_cleanup. cbv zeta. cbn [fst snd].
      destruct (lock_try B _ _ e1) as [o e2].
      destruct o as [| | e].
      * destruct (clock_now B e2) as [now e3].
        destruct (store_delete B _ (e3, snd w)) as [[d err] w1].
        specialize (IH w1). unfold trace in IH.
        destruct (exec B (Run_loop n) w1) as [[r w2] t2].
        cbn [fst snd app] in *. destruct IH as (H1 & H2 & H3 & H4).
        unfold delete_log. destruct err as [err |];
          cbn [each_followed is_tick is_acquired is_lock_failure is_delete_failure
               lock_requested delete_issued error_logged is_error_log OlderThan
               fst snd andb];
          rewrite ?H1, ?H2, ?H3, ?H4, ?Z.eqb_refl; repeat split; reflexivity.
      * specialize (IH (e2, snd w)). unfold trace in IH.
        destruct (exec B (Run_loop n) (e2, snd w)) as [[r w2] t2].
        cbn [fst snd app] in *. destruct IH as (H1 & H2 & H3 & H4).
        cbn [each_followed is_tick is_acquired is_lock_failure is_delete_failure
             lock_requested delete_issued error_logged is_error_log andb];
          rewrite ?H1, ?H2, ?H3, ?H4, ?Z.eqb_refl; repeat split; reflexivity.
      * specialize (IH (e2, snd w)). unfold trace in IH.
        destruct (exec B (Run_loop n) (e2, snd w)) as [[r w2] t2].
        cbn [fst snd app] in *. destruct IH as (H1 & H2 & H3 & H4).
        cbn [each_followed is_tick is_acquired is_lock_failure is_delete_failure
             lock_requested delete_issued error_logged is_error_log andb];
          rewrite ?H1, ?H2, ?H3, ?H4, ?Z.eqb_refl; repeat split; reflexivity.
    + repeat split; reflexivity.
Qed.

(** C4: with protection enabled, [Run] leaves its loop only when the
    [select] picked the cancellation, and then returns the error of the
    context; as long as the [select] picks ticks the loop goes on, whatever
    the lock and the store answer, their failures ending in the error log.
    Once [Run] has returned, following it further changes nothing. *)
Theorem Run_ends_only_on_cancellation :
  forall (E S : Type) (B : Backend E S) (w : E * S) (turns : nat),
    cfg_disabled B (fst w) = false ->
    match result B (Run turns) w with
    | Returned e =>
        exists pre,
          trace B (Run turns) w =
            EvCfg false :: EvNewTicker (10 * Minute) :: pre
              ++ [EvSelect CtxDone; EvCtxErr e] /\
          existsb is_cancel pre = false
    | Selecting =>
        existsb is_cancel (trace B (Run turns) w) = false /\
        List.length (filter is_tick (trace B (Run turns) w)) = turns
    end /\
    each_followed is_lock_failure error_logged (trace B (Run turns) w) = true /\
    each_followed is_delete_failure error_logged (trace B (Run turns) w) = true /\
    (forall (e : error) (more : nat),
        result B (Run turns) w = Returned e ->
        exec B (Run (turns + more)) w = exec B (Run turns) w).
Proof.
  intros E S B w turns Hcfg.
  pose proof (Run_loop_trace B turns w) as Htr.
  pose proof (Run_loop_discipline B turns w) as (_ & _ & Hlock & Hdel).
  pose proof (Run_loop_stable B turns) as Hstable.
  unfold result, trace in *.
  assert (Hmore : forall more,
             exec B (Run (turns + more)) w =
             let '(r, w', tr) := exec B (Run_loop (turns + more)) w in
             (r, w', EvCfg false :: EvNewTicker (10 * Minute) :: tr))
    by (intros more; apply exec_Run_enabled, Hcfg).
  rewrite (exec_Run_enabled B turns w Hcfg).
  specialize (Hstable).
  destruct (exec B (Run_loop turns) w) as [[r w'] tr] eqn:Hloop.
  cbn [fst snd] in *. repeat split.
  - destruct r as [e |].
    + destruct Htr as [pre [Heq Hpre]]. exists pre. rewrite Heq. split; [reflexivity | exact Hpre].
    + destruct Htr as [Hno Hlen]. split; [exact Hno | exact Hlen].
  - exact Hlock.
  - exact Hdel.
  - intros e more Hret. rewrite Hmore.
    rewrite (Hstable more w e); [rewrite Hloop; reflexivity |].
    rewrite Hloop. exact Hret.
Qed.

Lemma Run_ends_only_on_cancellation_witness :
  (existsb is_cancel (trace sim.backend (Run 3) (sim.database_down, sim.recent "alice" 2))
   = false /\
   List.length (filter is_tick
     (trace sim.backend (Run 3) (sim.database_down, sim.recent "alice" 2))) = 3%nat) /\
  (exists pre,
     trace sim.backend (Run 4) (sim.database_down, sim.recent "alice" 2) =
       EvCfg false :: EvNewTicker (10 * Minute) :: pre
         ++ [EvSelect CtxDone; EvCtxErr (Some (errorString "context canceled"))] /\
     existsb is_cancel pre = false).
Proof.
  split.
  - exact (proj1 (Run_ends_only_on_cancellation _ _ sim.backend
                    (sim.database_down, sim.recent "alice" 2) 3 eq_refl)).
  - exact (proj1 (Run_ends_only_on_cancellation _ _ sim.backend
                    (sim.database_down, sim.recent "alice" 2) 4 eq_refl)).
Defined.

(** The loop never reads the configuration flag. *)
Lemma Run_loop_no_cfg_read {E S : Type} (B : Backend E S) :
  forall (turns : nat) (w : E * S),
    existsb is_cfg_read (trace B (Run_loop turns) w) = false.
Proof.
  induction turns as [| n IH]; intros w; [reflexivity |].
  unfold trace. rewrite exec_Run_loop_S.
  destruct (ctx_select B (fst w)) as [k e1]. destruct k; [| reflexivity].
  rewrite exec_cleanup. cbv zeta. cbn [fst snd].
  destruct (lock_try B _ _ e1) as [o e2].
  destruct o as [| | e].
  - destruct (clock_now B e2) as [now e3].
    destruct (store_delete B _ (e3, snd w)) as [[d err] w1].
    specialize (IH w1). unfold trace in IH.
    destruct (exec B (Run_loop n) w1) as [[r w2] t2].
    cbn [fst snd app] in *. unfold delete_log. cbn [snd].
    destruct err; cbn [existsb is_cfg_read orb]; exact IH.
  - specialize (IH (e2, snd w)). unfold trace in IH.
    destruct (exec B (Run_loop n) (e2, snd w)) as [[r w2] t2].
    cbn [fst snd app existsb is_cfg_read orb] in *. exact IH.
  - specialize (IH (e2, snd w)). unfold trace in IH.
    destruct (exec B (Run_loop n) (e2, snd w)) as [[r w2] t2].
    cbn [fst snd app existsb is_cfg_read orb] in *. exact IH.
Qed.

(** C5: with protection disabled, [Run] returns nil at once: it reads the
    flag and does nothing else, no ticker, no clean-up.  The flag is read
    once, on entry; nothing that follows reads it again. *)
Theorem Run_disabled_returns_at_once :
  forall (E S : Type) (B : Backend E S) (w : E * S) (turns : nat),
    (cfg_disabled B (fst w) = true ->
     exec B (Run turns) w = (Returned None, w, [EvCfg true])) /\
    (exists rest,
        trace B (Run turns) w = EvCfg (cfg_disabled B (fst w)) :: rest /\
        existsb is_cfg_read rest = false).
Proof.
  intros E S B w turns. split.
  - intros Hcfg. unfold Run. cbn [bind call exec handle event_of].
    rewrite Hcfg. reflexivity.
  - destruct (cfg_disabled B (fst w)) eqn:Hcfg.
    + exists []. unfold trace, Run. cbn [bind call exec handle event_of].
      rewrite Hcfg. split; reflexivity.
    + pose proof (Run_loop_no_cfg_read B turns w) as Hno.
      unfold trace in *. rewrite (exec_Run_enabled B turns w Hcfg).
      destruct (exec B (Run_loop turns) w) as [[r w'] tr]. cbn [fst snd] in *.
      exists (EvNewTicker (10 * Minute) :: tr). split; [reflexivity |].
      cbn [existsb is_cfg_read orb]. exact Hno.
Qed.

Lemma Run_disabled_returns_at_once_witness :
  exec sim.backend (Run 7) (sim.switched_off, sim.recent "alice" 9)
  = (Returned None, (sim.switched_off, sim.recent "alice" 9), [EvCfg true]).
Proof.
  apply (proj1 (Run_disabled_returns_at_once _ _ sim.backend
                  (sim.switched_off, sim.recent "alice" 9) 7)).
  reflexivity.
Defined.

(** ** Windows and thresholds *)


(** ** The clean-up on a tick *)



(** ** Validation reads only *)

(** C8: [Validate] sends the store no create and no delete, and at most
    one operation at all, the count query; over a store whose count query
    leaves the records as they are, the records after [Validate] are the
    records before. *)
Theorem Validate_only_counts :
  forall (E S : Type) (B : Backend E S) (w : E * S) (u : string),
    count_reads B ->
    existsb is_store_write (trace B (Validate u) w) = false /\
    (List.length (filter is_store_op (trace B (Validate u) w)) <= 1)%nat /\
    snd (final B (Validate u) w) = snd w.
Proof.
  intros E S B w u Hreads. unfold trace, final.
  destruct (cfg_disabled B (fst w)) eqn:Hcfg.
  - rewrite (exec_Validate_disabled B u w Hcfg). cbn. repeat split. lia.
  - rewrite (exec_Validate_enabled B u w Hcfg).
    destruct (clock_now B (fst w)) as [now e]. cbv zeta.
    pose proof (Hreads (window_query u now) (e, snd w)) as Hsame.
    destruct (store_count B _ (e, snd w)) as [r w'].
    cbn in *. repeat split; [lia | exact Hsame].
Qed.

(** The count query of the simulated store reads. *)
Lemma sim_count_reads : count_reads sim.backend.
Proof.
  intros q [e recs]. unfold sim.backend, store_count, sim.CountSince. cbn [fst snd].
  destruct (sim.outage e); reflexivity.
Qed.

Lemma Validate_only_counts_witness :
  existsb is_store_write
    (trace sim.backend (Validate "alice") (sim.env0, sim.recent "alice" 5)) = false /\
  (List.length (filter is_store_op
     (trace sim.backend (Validate "alice") (sim.env0, sim.recent "alice" 5))) <= 1)%nat /\
  snd (final sim.backend (Validate "alice") (sim.env0, sim.recent "alice" 5))
  = sim.recent "alice" 5.
Proof.
  apply (Validate_only_counts _ _ sim.backend (sim.env0, sim.recent "alice" 5) "alice").
  exact sim_count_reads.
Defined.

(** ** The boundary of the window, on the simulated store *)

Lemma filter_andb {A : Type} (f g : A -> bool) (l : list A) :
  filter (fun a => f a && g a) l = filter f (filter g l).
Proof.
  induction l as [| a l IH]; [reflexivity |].
  cbn [filter]. destruct (g a); cbn [filter].
  - rewrite andb_true_r. destruct (f a); rewrite IH; reflexivity.
  - rewrite andb_false_r. exact IH.
Qed.

Lemma filter_idem {A : Type} (g : A -> bool) (l : list A) :
  filter g (filter g l) = filter g l.
Proof.
  induction l as [| a l IH]; [reflexivity |].
  cbn [filter]. destruct (g a) eqn:Hg; cbn [filter]; rewrite ?Hg, IH; reflexivity.
Qed.

(** The simulated store counts, for the query of [Validate], the attempts
    of the username among those strictly newer than the bound. *)
Lemma sim_counted_window (u : string) (now : Time) (recs : list sim.AttemptRecord) :
  filter (sim.counted (window_query u now)) recs =
  filter (fun r => String.eqb (sim.username r) u)
    (filter (fun r => now - 5 * Minute <? sim.occurredAt r) recs).
Proof.
  rewrite <- filter_andb. reflexivity.
Qed.

(** C9: on the store of the specification, [Validate] never counts an
    attempt made five minutes or more before the call: dropping every
    attempt that is not strictly newer than now less five minutes (one at
    exactly that instant included) changes neither the answer nor the count
    the store reports, and the count is the number of the username's
    attempts strictly inside the window. *)
Theorem stale_attempts_not_counted :
  forall (env : sim.Env) (recs : list sim.AttemptRecord) (u : string),
    let fresh :=
      filter (fun r => sim.clock env - 5 * Minute <? sim.occurredAt r) recs in
    result sim.backend (Validate u) (env, recs)
    = result sim.backend (Validate u) (env, fresh) /\
    trace sim.backend (Validate u) (env, recs)
    = trace sim.backend (Validate u) (env, fresh) /\
    (sim.disabled env = false ->
     sim.outage env = None ->
     trace sim.backend (Validate u) (env, recs)
     = [EvCfg false; EvNow (sim.clock env);
        EvCount {| q_Username := u; q_Since := sim.clock env - 5 * Minute |}
          (Z.of_nat (List.length
             (filter (fun r => String.eqb (sim.username r) u) fresh)))
          None]).
Proof.
  intros env recs u fresh.
  destruct (sim.disabled env) eqn:Hcfg.
  - unfold result, trace.
    rewrite (exec_Validate_disabled sim.backend u (env, recs) Hcfg),
      (exec_Validate_disabled sim.backend u (env, fresh) Hcfg).
    repeat split. intros Hoff. discriminate Hoff.
  - unfold result, trace.
    rewrite (exec_Validate_enabled sim.backend u (env, recs) Hcfg),
      (exec_Validate_enabled sim.backend u (env, fresh) Hcfg).
    cbn [sim.backend clock_now store_count fst snd]. cbv zeta.
    unfold sim.CountSince. cbn [fst snd].
    destruct (sim.outage env) eqn:Hout.
    + repeat split. intros _ Hnone. discriminate Hnone.
    + rewrite !sim_counted_window. subst fresh. rewrite filter_idem.
      repeat split.
Qed.

Lemma stale_attempts_not_counted_witness :
  trace sim.backend (Validate "alice")
    (sim.env0, repeat (sim.attempt "alice" (sim.clock sim.env0 - 5 * Minute)) 5)
  = [EvCfg false; EvNow (sim.clock sim.env0);
     EvCount {| q_Username := "alice"; q_Since := sim.clock sim.env0 - 5 * Minute |}
       0 None].
Proof.
  apply (stale_attempts_not_counted sim.env0
           (repeat (sim.attempt "alice" (sim.clock sim.env0 - 5 * Minute)) 5) "alice");
    reflexivity.
Defined.

(** Both sides of the boundary: five attempts at exactly now less five
    minutes leave the login allowed, five attempts one nanosecond later
    do not. *)
Example window_boundary :
  result sim.backend (Validate "alice")
    (sim.env0, repeat (sim.attempt "alice" (sim.clock sim.env0 - 5 * Minute)) 5)
  = (true, None) /\
  result sim.backend (Validate "alice")
    (sim.env0, repeat (sim.attempt "alice" (sim.clock sim.env0 - 5 * Minute + 1)) 5)
  = (false, None).
Proof. split; vm_compute; reflexivity. Qed.

(** The scenario of section 8: four failed attempts leave alice allowed,
    the fifth locks her out, and six minutes later she is allowed again. *)
Example alice_scenario :
  let add w := final sim.backend (Add "alice" "192.0.2.7") w in
  let w4 := add (add (add (add (sim.env0, [])))) in
  let w5 := add w4 in
  let later := (sim.advance (6 * Minute) (fst w5), snd w5) in
  result sim.backend (Validate "alice") w4 = (true, None) /\
  result sim.backend (Validate "alice") w5 = (false, None) /\
  result sim.backend (Validate "alice") later = (true, None).
Proof. repeat split; vm_compute; reflexivity. Qed.

(** ** The dimension-keys handler *)





(** * Further properties of the service *)

(** X1: [Validate] fails closed: whenever it returns an error the login is
    not allowed; an allowed answer always comes with a nil error. *)
Theorem Validate_fails_closed :
  forall (E S : Type) (B : Backend E S) (w : E * S) (u : string),
    fst (result B (Validate u) w) = false \/ snd (result B (Validate u) w) = None.
Proof.
  intros E S B w u. unfold result.
  destruct (cfg_disabled B (fst w)) eqn:Hcfg.
  - rewrite (exec_Validate_disabled B u w Hcfg). right. reflexivity.
  - rewrite (exec_Validate_enabled B u w Hcfg).
    destruct (clock_now B (fst w)) as [now e]. cbv zeta.
    destruct (store_count B _ (e, snd w)) as [[n err] w']. cbn [fst snd].
    destruct err; [left | right]; reflexivity.
Qed.

(** X2: on the request path nothing but the flag, the clock and the store
    is touched: [Add] only reads the flag and sends at most one create (no
    clock, no count, no delete), [Validate] only reads the flag and the
    clock and sends the count; neither asks for the lock, waits on the
    ticker or writes to the log. *)
Theorem request_path_touches_flag_clock_store_only :
  forall (E S : Type) (B : Backend E S) (w : E * S) (u ip : string),
    forallb Add_event (trace B (Add u ip) w) = true /\
    (occurrences is_create (trace B (Add u ip) w) <= 1)%nat /\
    forallb Validate_event (trace B (Validate u) w) = true.
Proof.
  intros E S B w u ip. unfold trace, occurrences.
  destruct (cfg_disabled B (fst w)) eqn:Hcfg.
  - rewrite (exec_Add_disabled B u ip w Hcfg), (exec_Validate_disabled B u w Hcfg).
    cbn. repeat split. lia.
  - rewrite (exec_Add_enabled B u ip w Hcfg), (exec_Validate_enabled B u w Hcfg).
    cbv zeta. destruct (store_create B _ w) as [err w1].
    destruct (clock_now B (fst w)) as [now e].
    destruct (store_count B _ (e, snd w)) as [r w2].
    cbn. repeat split. lia.
Qed.

(** X3: a [cleanup] that does not get the lock, because it is held
    elsewhere or because the request failed, sends the store nothing,
    reads no clock and leaves the records as they are. *)
Theorem cleanup_without_lock_leaves_store :
  forall (E S : Type) (B : Backend E S) (w : E * S),
    fst (lock_try B "delete old login attempts" (10 * Minute) (fst w)) <> LockAcquired ->
    snd (final B cleanup w) = snd w /\
    existsb is_store_op (trace B cleanup w) = false /\
    samples (trace B cleanup w) = [].
Proof.
  intros E S B w Hlock. unfold final, trace. rewrite exec_cleanup. cbv zeta.
  destruct (lock_try B _ _ (fst w)) as [o e1]. cbn [fst] in Hlock.
  destruct o as [| | e]; [contradiction Hlock; reflexivity | |];
    repeat split; reflexivity.
Qed.

Lemma cleanup_without_lock_leaves_store_witness :
  snd (final sim.backend cleanup (sim.lock_busy, sim.recent "alice" 3))
  = sim.recent "alice" 3 /\
  existsb is_store_op (trace sim.backend cleanup (sim.lock_busy, sim.recent "alice" 3))
  = false /\
  samples (trace sim.backend cleanup (sim.lock_busy, sim.recent "alice" 3)) = [].
Proof.
  apply (cleanup_without_lock_leaves_store _ _ sim.backend
           (sim.lock_busy, sim.recent "alice" 3)).
  discriminate.
Defined.

(** X4: [cleanup] writes to the error log exactly when the lock request
    failed or the delete failed, and then once; a lock held elsewhere and a
    successful delete put nothing in the error log. *)
Theorem cleanup_error_log_iff_failure :
  forall (E S : Type) (B : Backend E S) (w : E * S),
    existsb is_error_log (trace B cleanup w)
    = existsb is_lock_failure (trace B cleanup w)
      || existsb is_delete_failure (trace B cleanup w) /\
    (occurrences is_error_log (trace B cleanup w) <= 1)%nat.
Proof.
  intros E S B w. unfold trace, occurrences. rewrite exec_cleanup. cbv zeta.
  destruct (lock_try B _ _ (fst w)) as [o e1]. destruct o as [| | e].
  - destruct (clock_now B e1) as [now e2].
    destruct (store_delete B _ (e2, snd w)) as [[n err] w'].
    unfold delete_log. cbn [fst snd]. destruct err; cbn; split; try reflexivity; lia.
  - cbn. split; [reflexivity | lia].
  - cbn. split; [reflexivity | lia].
Qed.

(** What the loop does, counted. *)
Lemma Run_loop_counts {E S : Type} (B : Backend E S) :
  forall (turns : nat) (w : E * S),
    occurrences is_lock_request (trace B (Run_loop turns) w)
    = occurrences is_tick (trace B (Run_loop turns) w) /\
    occurrences is_delete (trace B (Run_loop turns) w)
    = occurrences is_acquired (trace B (Run_loop turns) w) /\
    List.length (samples (trace B (Run_loop turns) w))
    = occurrences is_acquired (trace B (Run_loop turns) w) /\
    count_queries (trace B (Run_loop turns) w) = [] /\
    existsb is_create (trace B (Run_loop turns) w) = false /\
    occurrences is_new_ticker (trace B (Run_loop turns) w) = 0%nat.
Proof.
  unfold occurrences.
  induction turns as [| n IH]; intros w.
  - repeat split; reflexivity.
  - unfold trace. rewrite exec_Run_loop_S.
    destruct (ctx_select B (fst w)) as [k e1]. destruct k.
    + rewrite exec_cleanup. cbv zeta. cbn [fst snd].
      destruct (lock_try B _ _ e1) as [o e2].
      destruct o as [| | e].
      * destruct (clock_now B e2) as [now e3].
        destruct (store_delete B _ (e3, snd w)) as [[d err] w1].
        specialize (IH w1). unfold trace in IH.
        destruct (exec B (Run_loop n) w1) as [[r w2] t2].
        cbn [fst snd app] in *. destruct IH as (H1 & H2 & H3 & H4 & H5 & H6).
        unfold delete_log. cbn [snd fst].
        destruct err; cbn; rewrite ?H1, ?H2, ?H3, ?H4, ?H5, ?H6; repeat split; reflexivity.
      * specialize (IH (e2, snd w)). unfold trace in IH.
        destruct (exec B (Run_loop n) (e2, snd w)) as [[r w2] t2].
        cbn [fst snd app] in *. destruct IH as (H1 & H2 & H3 & H4 & H5 & H6).
        cbn; rewrite ?H1, ?H2, ?H3, ?H4, ?H5, ?H6; repeat split; reflexivity.
      * specialize (IH (e2, snd w)). unfold trace in IH.
        destruct (exec B (Run_loop n) (e2, snd w)) as [[r w2] t2].
        cbn [fst snd app] in *. destruct IH as (H1 & H2 & H3 & H4 & H5 & H6).
        cbn; rewrite ?H1, ?H2, ?H3, ?H4, ?H5, ?H6; repeat split; reflexivity.
    + repeat split; reflexivity.
Qed.

(** X5: whatever the backend answers, [Run] asks for the lock once per
    tick, sends one delete and reads the clock once per acquired lock,
    never creates an attempt and never counts, and starts its ticker once
    (not at all when protection is disabled). *)
Theorem Run_operation_counts :
  forall (E S : Type) (B : Backend E S) (w : E * S) (turns : nat),
    occurrences is_lock_request (trace B (Run turns) w)
    = occurrences is_tick (trace B (Run turns) w) /\
    occurrences is_delete (trace B (Run turns) w)
    = occurrences is_acquired (trace B (Run turns) w) /\
    List.length (samples (trace B (Run turns) w))
    = occurrences is_acquired (trace B (Run turns) w) /\
    count_queries (trace B (Run turns) w) = [] /\
    existsb is_create (trace B (Run turns) w) = false /\
    occurrences is_new_ticker (trace B (Run turns) w)
    = (if cfg_disabled B (fst w) then 0 else 1)%nat.
Proof.
  intros E S B w turns.
  destruct (cfg_disabled B (fst w)) eqn:Hcfg.
  - unfold trace, Run. cbn [bind call exec handle event_of]. rewrite Hcfg.
    repeat split; reflexivity.
  - pose proof (Run_loop_counts B turns w) as (H1 & H2 & H3 & H4 & H5 & H6).
    unfold trace, occurrences in *. rewrite (exec_Run_enabled B turns w Hcfg).
    destruct (exec B (Run_loop turns) w) as [[r w'] tr]. cbn [fst snd] in *.
    cbn. rewrite ?H1, ?H2, ?H3, ?H4, ?H5, ?H6. repeat split; reflexivity.
Qed.

(** The loop changes the records only under the lock. *)
Lemma Run_loop_store_only_under_lock {E S : Type} (B : Backend E S) :
  forall (turns : nat) (w : E * S),
    existsb is_acquired (trace B (Run_loop turns) w) = false ->
    snd (final B (Run_loop turns) w) = snd w.
Proof.
  induction turns as [| n IH]; intros w; [reflexivity |].
  unfold trace, final. rewrite exec_Run_loop_S.
  destruct (ctx_select B (fst w)) as [k e1]. destruct k; [| reflexivity].
  rewrite exec_cleanup. cbv zeta. cbn [fst snd].
  destruct (lock_try B _ _ e1) as [o e2].
  destruct o as [| | e].
  - destruct (clock_now B e2) as [now e3].
    destruct (store_delete B _ (e3, snd w)) as [[d err] w1].
    destruct (exec B (Run_loop n) w1) as [[r w2] t2].
    cbn. discriminate.
  - specialize (IH (e2, snd w)). unfold trace, final in IH.
    destruct (exec B (Run_loop n) (e2, snd w)) as [[r w2] t2].
    cbn [fst snd app existsb is_acquired orb] in *. exact IH.
  - specialize (IH (e2, snd w)). unfold trace, final in IH.
    destruct (exec B (Run_loop n) (e2, snd w)) as [[r w2] t2].
    cbn [fst snd app existsb is_acquired orb] in *. exact IH.
Qed.

(** X6: [Run] changes the records of the store only under the lock: a run
    in which the lock was never acquired leaves them as they were, however
    many ticks it served. *)
Theorem Run_store_changes_only_under_lock :
  forall (E S : Type) (B : Backend E S) (w : E * S) (turns : nat),
    existsb is_acquired (trace B (Run turns) w) = false ->
    snd (final B (Run turns) w) = snd w.
Proof.
  intros E S B w turns.
  destruct (cfg_disabled B (fst w)) eqn:Hcfg.
  - intros _. unfold final, Run. cbn [bind call exec handle event_of]. rewrite Hcfg.
    reflexivity.
  - pose proof (Run_loop_store_only_under_lock B turns w) as Hloop.
    unfold trace, final in *. rewrite (exec_Run_enabled B turns w Hcfg).
    destruct (exec B (Run_loop turns) w) as [[r w'] tr]. cbn [fst snd] in *.
    cbn [existsb is_acquired orb]. exact Hloop.
Qed.

Lemma Run_store_changes_only_under_lock_witness :
  snd (final sim.backend (Run 5) (sim.lock_busy, sim.recent "alice" 3))
  = sim.recent "alice" 3.
Proof.
  apply (Run_store_changes_only_under_lock _ _ sim.backend
           (sim.lock_busy, sim.recent "alice" 3) 5).
  reflexivity.
Defined.


(** * Further properties of the dimension-keys handler *)


(** X9: the handler uses the request-context factory only at the region of
    the parsed request and not at all when the parameters do not parse:
    two factories that agree there give the same answer. *)
Theorem DimensionKeysHandler_factory_only_at_region :
  forall (X : routes.Externals) (pluginCtx : routes.PluginContext)
         (f1 f2 : routes.RequestContextFactoryFunc)
         (parameters : routes.url_Values),
    (snd (routes.GetDimensionKeysRequest parameters) = None ->
     f1 pluginCtx (routes.Region (fst (routes.GetDimensionKeysRequest parameters)))
     = f2 pluginCtx (routes.Region (fst (routes.GetDimensionKeysRequest parameters)))) ->
    routes.DimensionKeysHandler pluginCtx f1 parameters
    = routes.DimensionKeysHandler pluginCtx f2 parameters.
Proof.
  intros X pluginCtx f1 f2 parameters Hagree.
  unfold routes.DimensionKeysHandler, routes.newListMetricsService.
  destruct (routes.GetDimensionKeysRequest parameters) as [req [e |]];
    [reflexivity |].
  cbn [fst snd] in Hagree. rewrite (Hagree eq_refl). reflexivity.
Qed.

Lemma DimensionKeysHandler_factory_only_at_region_witness :
  routes.DimensionKeysHandler (X := routes.stub.externals) tt routes.stub.factory
    [("namespace", "AWS/EC2")]
  = routes.DimensionKeysHandler (X := routes.stub.externals) tt routes.stub.no_factory
      [("namespace", "AWS/EC2")] /\
  routes.DimensionKeysHandler (X := routes.stub.externals) tt routes.stub.factory
    [("region", "eu-west-9"); ("namespace", "AWS/EC2")]
  = routes.DimensionKeysHandler (X := routes.stub.externals) tt routes.stub.other_factory
      [("region", "eu-west-9"); ("namespace", "AWS/EC2")].
Proof.
  split.
  - apply (DimensionKeysHandler_factory_only_at_region routes.stub.externals tt
             routes.stub.factory routes.stub.no_factory [("namespace", "AWS/EC2")]).
    intros Hparsed. discriminate Hparsed.
  - apply (DimensionKeysHandler_factory_only_at_region routes.stub.externals tt
             routes.stub.factory routes.stub.other_factory
             [("region", "eu-west-9"); ("namespace", "AWS/EC2")]).
    intros _. reflexivity.
Defined.



(** A filter request, by contrast, does use the client of the factory. *)
Example filter_request_uses_metric_client :
  routes.DimensionKeysHandler (X := routes.stub.externals) tt routes.stub.factory
    [("region", "us-east-1"); ("namespace", "AWS/EC2"); ("metricName", "CPUUtilization")]
  <> routes.DimensionKeysHandler (X := routes.stub.externals) tt routes.stub.other_factory
       [("region", "us-east-1"); ("namespace", "AWS/EC2"); ("metricName", "CPUUtilization")].
Proof. vm_compute. discriminate. Qed.
